(** * controlbox.connector.serialconn

    A shallow embedding of [controlbox/connector/serialconn.py]: the serial
    connector (the hook methods [_connected], [_try_open], [_connect],
    [_disconnect], [_try_available]), the connector factory used as a
    context manager, and the presence watchdog that the module drives.

    Python code is rendered in a state-and-exception monad over a [World]
    that holds the one [Serial] object the connector and the factory share,
    the records handed to the module logger, and the calls that reached the
    transport. *)

From Stdlib Require Import String Ascii List Bool Arith Lia.
From stdpp Require Import base gmap sets list strings.
Import ListNotations.
Open Scope string_scope.

(** ** Python values, exceptions and the [%] operator *)

Module Py.

(** The exception classes the module meets. [SerialException] is pyserial's
    (a subclass of [IOError], that is of [OSError]); [ConnectorError] is
    declared in [controlbox.connector.base]. *)
Inductive exn_class : Type :=
  | Exception
  | TypeError
  | ValueError
  | AttributeError
  | OSError
  | SerialException
  | SerialTimeoutException
  | ConnectorError.

Definition exn_class_eqb (c d : exn_class) : bool :=
  match c, d with
  | Exception, Exception | TypeError, TypeError | ValueError, ValueError
  | AttributeError, AttributeError | OSError, OSError
  | SerialException, SerialException
  | SerialTimeoutException, SerialTimeoutException
  | ConnectorError, ConnectorError => true
  | _, _ => false
  end.

(** The method resolution order of a class, itself first. *)
Definition mro (c : exn_class) : list exn_class :=
  match c with
  | Exception => [Exception]
  | TypeError => [TypeError; Exception]
  | ValueError => [ValueError; Exception]
  | AttributeError => [AttributeError; Exception]
  | OSError => [OSError; Exception]
  | SerialException => [SerialException; OSError; Exception]
  | SerialTimeoutException =>
      [SerialTimeoutException; SerialException; OSError; Exception]
  | ConnectorError => [ConnectorError; Exception]
  end.

Definition issubclass (c d : exn_class) : bool :=
  existsb (exn_class_eqb d) (mro c).

(** An exception object: its class, the message it was built with,
    [__cause__] (set by [raise ... from]) and [__context__] (the exception
    that was being handled when this one was raised). *)
#[local] Unset Elimination Schemes.
Inductive exn : Type :=
  | mkExn (cls : exn_class) (msg : option string)
          (cause : option exn) (context : option exn).
#[local] Set Elimination Schemes.

Definition e_class (e : exn) : exn_class := let 'mkExn c _ _ _ := e in c.
Definition e_msg (e : exn) : option string := let 'mkExn _ m _ _ := e in m.
Definition e_cause (e : exn) : option exn := let 'mkExn _ _ c _ := e in c.
Definition e_context (e : exn) : option exn := let 'mkExn _ _ _ c := e in c.

Definition isinstance (e : exn) (c : exn_class) : bool :=
  issubclass (e_class e) c.

(** [str(e)]: the empty string for an exception built without arguments. *)
Definition str_exn (e : exn) : string :=
  match e_msg e with Some m => m | None => "" end.

(** [str(x)] for an attribute that holds a string or [None]. *)
Definition str_opt (x : option string) : string :=
  match x with Some s => s | None => "None" end.

(** The values a method of the module hands back or receives. *)
Inductive pyval : Type :=
  | PyNone
  | PyBool (b : bool)
  | PyStr (s : string)
  | PySerial                      (* the Serial object of the world *)
  | PySniffer (tag : string)
  | PyConduit                     (* SerialConduit(self._serial) *)
  | PyConnector                   (* the SerialConnector of the world *)
  | PyExcType (c : exn_class)
  | PyExc (e : exn)
  | PyTraceback.

(** ** Printf-style formatting, [fmt % args]

    Only the conversions the module uses are interpreted: [%s] and the
    literal [%%]. The right operand is the sequence of values (already
    passed through [str]): a tuple gives its items, any other object is a
    sequence of one. *)
Inductive fmt_error : Type :=
  | NotEnoughArguments        (* TypeError *)
  | NotAllConverted           (* TypeError *)
  | UnsupportedCharacter      (* ValueError *)
  | IncompleteFormat.         (* ValueError *)

Fixpoint percent (fmt : string) (args : list string) : fmt_error + string :=
  match fmt with
  | EmptyString =>
      match args with
      | [] => inr EmptyString
      | _ :: _ => inl NotAllConverted
      end
  | String "%"%char rest =>
      match rest with
      | EmptyString => inl IncompleteFormat
      | String "s"%char rest' =>
          match args with
          | [] => inl NotEnoughArguments
          | a :: args' =>
              match percent rest' args' with
              | inr out => inr (a +:+ out)
              | inl err => inl err
              end
          end
      | String "%"%char rest' =>
          match percent rest' args with
          | inr out => inr (String "%"%char out)
          | inl err => inl err
          end
      | String _ _ => inl UnsupportedCharacter
      end
  | String c rest =>
      match percent rest args with
      | inr out => inr (String c out)
      | inl err => inl err
      end
  end.

Definition fmt_exn (err : fmt_error) (ctx : option exn) : exn :=
  match err with
  | NotEnoughArguments =>
      mkExn TypeError (Some "not enough arguments for format string") None ctx
  | NotAllConverted =>
      mkExn TypeError
        (Some "not all arguments converted during string formatting") None ctx
  | UnsupportedCharacter =>
      mkExn ValueError (Some "unsupported format character") None ctx
  | IncompleteFormat =>
      mkExn ValueError (Some "incomplete format") None ctx
  end.

End Py.

(** ** The world, and the monad of Python statements *)

Module SerialConn.
Import Py.

(** What the module reads of a pyserial [Serial] object. *)
Record Serial : Type := mkSerial {
  port : option string;
  name : option string;
  is_open : bool
}.

Inductive level : Type := DEBUG | INFO | WARNING | ERROR.

Record log_record : Type := mkLog {
  lvl : level;
  text : string
}.

(** Calls that reached a collaborator, most recent first. *)
Inductive call : Type :=
  | OpenCall          (* Serial.open() *)
  | CloseCall         (* Serial.close() *)
  | EnumerateCall     (* serial_ports() *)
  | ConnectCall       (* connector.connect() *)
  | DisconnectCall.   (* connector.disconnect() *)

Definition call_eqb (a b : call) : bool :=
  match a, b with
  | OpenCall, OpenCall | CloseCall, CloseCall
  | EnumerateCall, EnumerateCall | ConnectCall, ConnectCall
  | DisconnectCall, DisconnectCall => true
  | _, _ => false
  end.

(** The objects the module works on: the [Serial] object (the factory's
    [self.serial] and the connector's [self._serial] are the same object),
    the attributes the connector inherits from its base class, the records
    passed to [logger], and the calls made so far. *)
Record World : Type := mkWorld {
  w_serial : Serial;
  w_sniffer : option pyval;
  w_conduit : option pyval;
  w_protocol : option string;
  w_log : list log_record;
  w_calls : list call
}.

Definition set_serial (s : Serial) (w : World) : World :=
  mkWorld s (w_sniffer w) (w_conduit w) (w_protocol w) (w_log w) (w_calls w).

Definition set_base (sn : option pyval) (cd : option pyval)
    (pr : option string) (w : World) : World :=
  mkWorld (w_serial w) sn cd pr (w_log w) (w_calls w).

Definition add_log (r : log_record) (w : World) : World :=
  mkWorld (w_serial w) (w_sniffer w) (w_conduit w) (w_protocol w)
    (r :: w_log w) (w_calls w).

Definition add_call (c : call) (w : World) : World :=
  mkWorld (w_serial w) (w_sniffer w) (w_conduit w) (w_protocol w)
    (w_log w) (c :: w_calls w).

Definition count_calls (c : call) (w : World) : nat :=
  length (List.filter (call_eqb c) (w_calls w)).

Inductive outcome (A : Type) : Type :=
  | Return (a : A)
  | Raise (e : exn).
Arguments Return {A} a.
Arguments Raise {A} e.

(** A statement runs in a world and ends by returning or raising; what it
    did to the world before raising stays done. *)
Definition M (A : Type) : Type := World -> outcome A * World.

Definition ret {A} (a : A) : M A := fun w => (Return a, w).

Definition raise {A} (e : exn) : M A := fun w => (Raise e, w).

Definition bind {A B} (m : M A) (k : A -> M B) : M B :=
  fun w =>
    match m w with
    | (Return a, w') => k a w'
    | (Raise e, w') => (Raise e, w')
    end.

Notation "x <- m ;; k" := (bind m (fun x => k))
  (at level 100, m at next level, right associativity).
Notation "m ;;; k" := (bind m (fun _ => k))
  (at level 100, right associativity).

(** [try: body  except c as e: handler e] *)
Definition try_except {A} (body : M A) (c : exn_class)
    (handler : exn -> M A) : M A :=
  fun w =>
    match body w with
    | (Return a, w') => (Return a, w')
    | (Raise e, w') =>
        if isinstance e c then handler e w' else (Raise e, w')
    end.

(** [fmt % args], evaluated while [ctx] is being handled (if any). *)
Definition fmt (f : string) (args : list string) (ctx : option exn)
    : M string :=
  match percent f args with
  | inr s => ret s
  | inl err => raise (fmt_exn err ctx)
  end.

Definition logger (l : level) (s : string) : M unit :=
  fun w => (Return tt, add_log (mkLog l s) w).

Definition attr {A} (f : World -> A) : M A := fun w => (Return (f w), w).

(** ** The transport binding

    pyserial and the port enumeration are outside the module. [hw_open]
    says what [Serial.open()] does on a handle: [None] when the port opens,
    [Some e] when the call raises [e] and leaves the handle closed.
    [ports] is what [serial_ports()] yields, or the exception it raises. *)
Section Transport.

Variable hw_open : Serial -> option exn.
Variable ports : exn + list string.

(** The protocol the sniffer finds on a fresh conduit, if any. *)
Variable sniffed : option string.

Definition Serial_isOpen : M bool := attr (fun w => is_open (w_serial w)).

Definition Serial_open : M unit :=
  fun w =>
    let w1 := add_call OpenCall w in
    match hw_open (w_serial w) with
    | None =>
        (Return tt,
         set_serial (mkSerial (port (w_serial w)) (name (w_serial w)) true) w1)
    | Some e => (Raise e, w1)
    end.

Definition Serial_close : M unit :=
  fun w =>
    (Return tt,
     set_serial (mkSerial (port (w_serial w)) (name (w_serial w)) false)
       (add_call CloseCall w)).

Definition serial_ports : M (list string) :=
  fun w =>
    let w1 := add_call EnumerateCall w in
    match ports with
    | inr l => (Return l, w1)
    | inl e => (Raise e, w1)
    end.

(** [n in l], for [n] a string or [None] and [l] a sequence of strings. *)
Definition py_in (n : option string) (l : list string) : bool :=
  match n with
  | Some s => existsb (String.eqb s) l
  | None => false
  end.

(** ** class SerialConnector(AbstractConnector) *)

(** Modelled from the spec: [AbstractConnector.__init__] of
    [controlbox/connector/base.py], which is not in the sources. It keeps
    the sniffer; a new connector has no conduit and no protocol
    ("Protocol (optional): set once connection succeeds"). *)
Definition AbstractConnector__init__ (sniffer : pyval) : M pyval :=
  fun w => (Return PyNone, set_base (Some sniffer) None None w).

Definition missing_argument (f a : string) : exn :=
  mkExn TypeError
    (Some (f +:+ "() missing 1 required positional argument: '" +:+ a +:+ "'"))
    None None.

Definition too_many_arguments (f : string) : exn :=
  mkExn TypeError (Some (f +:+ "() takes fewer positional arguments"))
    None None.

(** [def __init__(self, serial: Serial, sniffer)], called with the
    positional arguments [args] after [self]. *)
Definition SerialConnector__init__ (args : list pyval) : M pyval :=
  match args with
  | [] => raise (missing_argument "__init__" "serial")
  | [_] => raise (missing_argument "__init__" "sniffer")
  | [serial; sniffer] =>
      AbstractConnector__init__ sniffer ;;;
      match serial with
      | PySerial =>
          o <- Serial_isOpen ;;
          if o
          then raise (mkExn ValueError
                        (Some "serial object should be initially closed")
                        None None)
          else ret PyNone
      | _ =>
          raise (mkExn AttributeError
                   (Some "object has no attribute 'isOpen'") None None)
      end
  | _ => raise (too_many_arguments "__init__")
  end.

(** The call [SerialConnector(args)]: the object, once [__init__] returns. *)
Definition new_SerialConnector (args : list pyval) : M pyval :=
  SerialConnector__init__ args ;;; ret PyConnector.

Definition _connected : M pyval :=
  o <- Serial_isOpen ;; ret (PyBool o).

(** The method has no [return]: it falls off its end, after the [if] or
    after the [try], and so hands back [None]. *)
Definition _try_open : M pyval :=
  o <- Serial_isOpen ;;
  (if negb o then
     try_except
       (Serial_open ;;;
        p <- attr (fun w => port (w_serial w)) ;;
        m <- fmt "opened serial port %s" [str_opt p] None ;;
        logger INFO m)
       SerialException
       (fun e =>
          p <- attr (fun w => port (w_serial w)) ;;
          m <- fmt "error opening serial port %s: %s" [str_opt p] (Some e) ;;
          logger WARNING m ;;;
          raise (mkExn ConnectorError None (Some e) (Some e)))
   else ret tt) ;;;
  ret PyNone.

Definition _connect : M pyval :=
  _try_open ;;; ret PyConduit.

Definition _disconnect : M pyval :=
  Serial_close ;;; ret PyNone.

Definition _try_available : M pyval :=
  n <- attr (fun w => name (w_serial w)) ;;
  try_except
    (l <- serial_ports ;; ret (PyBool (py_in n l)))
    SerialException
    (fun _ => ret (PyBool false)).

(** ** What the connector inherits

    [connect], [disconnect] and the [protocol] property come from
    [AbstractConnector] in [controlbox/connector/base.py], which is not in
    the sources: the factory is stated over any implementation of them. *)
Class AbstractConnector : Type := {
  connect : M pyval;
  disconnect : M pyval;
  protocol : M string
}.

Definition store_conduit (c : pyval) : M unit :=
  fun w => (Return tt, set_base (w_sniffer w) (Some c) sniffed w).

Definition clear_conduit : M unit :=
  fun w => (Return tt, set_base (w_sniffer w) None None w).

(** Modelled from the spec: [AbstractConnector.connect] of
    [controlbox/connector/base.py], which is not in the sources.
    "connect(): if already connected, returns the existing conduit
    unchanged. Otherwise calls the transport binding's attempt-open; on
    success wraps the transport handle into a conduit and transitions to
    Connected"; the protocol is "set once connection succeeds". *)
Definition spec_connect : M pyval :=
  c <- _connected ;;
  match c with
  | PyBool true =>
      cd <- attr w_conduit ;;
      ret (match cd with Some v => v | None => PyNone end)
  | _ =>
      cd <- _connect ;;
      store_conduit cd ;;;
      ret cd
  end.

(** Modelled from the spec: [AbstractConnector.disconnect] of
    [controlbox/connector/base.py], which is not in the sources.
    "disconnect(): if already disconnected, no-op. Otherwise closes the
    transport handle and transitions to Disconnected, discarding any
    protocol value." *)
Definition spec_disconnect : M pyval :=
  c <- _connected ;;
  match c with
  | PyBool true => _disconnect ;;; clear_conduit ;;; ret PyNone
  | _ => ret PyNone
  end.

(** Modelled from the spec: the [protocol] property of
    [AbstractConnector], which is not in the sources; read as [str] reads
    it. *)
Definition spec_protocol : M string :=
  attr (fun w => str_opt (w_protocol w)).

Definition spec_base : AbstractConnector :=
  {| connect := spec_connect;
     disconnect := spec_disconnect;
     protocol := spec_protocol |}.

(** ** class SerialConnectorFactory *)
Section Factory.

Context {base : AbstractConnector}.

(** [configure_serial_for_device(s, device)] belongs to
    [controlbox.conduit.serial_conduit]; it sets line parameters on [s]. *)
Variable configure_serial_for_device : pyval -> M pyval.

(** [Serial()]: a new, closed handle with no port. *)
Definition Serial_new : M pyval :=
  fun w => (Return PySerial, set_serial (mkSerial None None false) w).

Definition Serial_setPort (p : pyval) : M pyval :=
  fun w =>
    match p with
    | PyStr s =>
        (Return PyNone,
         set_serial (mkSerial (Some s) (Some s) (is_open (w_serial w))) w)
    | PyNone =>
        (Return PyNone,
         set_serial (mkSerial None None (is_open (w_serial w))) w)
    | _ =>
        (Raise (mkExn ValueError (Some "port must be a string or None")
                  None None), w)
    end.

Definition called {A} (c : call) (m : M A) : M A :=
  fun w => m (add_call c w).

(** [def __init__(self, port, device)], called with the positional
    arguments [args] after [self]. *)
Definition SerialConnectorFactory__init__ (args : list pyval) : M pyval :=
  match args with
  | [] => raise (missing_argument "__init__" "port")
  | [_] => raise (missing_argument "__init__" "device")
  | [port; device] =>
      s <- Serial_new ;;
      Serial_setPort port ;;;
      configure_serial_for_device device ;;;
      new_SerialConnector [s] ;;;
      ret PyNone
  | _ => raise (too_many_arguments "__init__")
  end.

Definition SerialConnectorFactory__enter__ : M pyval :=
  try_except
    (p <- attr (fun w => port (w_serial w)) ;;
     m <- fmt "Detected device on %s" [str_opt p] None ;;
     logger DEBUG m ;;;
     called ConnectCall connect ;;;
     p <- attr (fun w => port (w_serial w)) ;;
     pr <- protocol ;;
     m <- fmt "Connected device on %s using protocol %s" [str_opt p; pr]
            None ;;
     logger DEBUG m)
    ConnectorError
    (fun e =>
       let s := str_exn e in
       p <- attr (fun w => port (w_serial w)) ;;
       m <- fmt "Unable to connect to device on %s - %s" [str_opt p; s]
              (Some e) ;;
       logger ERROR m ;;;
       raise e) ;;;
  ret PyNone.

(** [def __exit__(self)], called with the positional arguments [args]
    after [self]. *)
Definition SerialConnectorFactory__exit__ (args : list pyval) : M pyval :=
  match args with
  | [] =>
      p <- attr (fun w => port (w_serial w)) ;;
      m <- fmt "Disconnected device on %s" [str_opt p] None ;;
      logger DEBUG m ;;;
      called DisconnectCall disconnect ;;;
      ret PyNone
  | _ => raise (too_many_arguments "__exit__")
  end.

(** [bool(v)], for what an [__exit__] may return. *)
Definition truthy (v : pyval) : bool :=
  match v with
  | PyNone => false
  | PyBool b => b
  | PyStr s => negb (String.eqb s "")
  | _ => true
  end.

Definition with_context (ctx : exn) (e : exn) : exn :=
  mkExn (e_class e) (e_msg e) (e_cause e)
    (match e_context e with Some c => Some c | None => Some ctx end).

(** The [with] statement over a manager whose methods are [enter] and
    [exit]: [exit] receives the exception triple, or three [None]s; when
    [enter] raises, [exit] is not called. *)
Definition with_statement (enter : M pyval) (exit : list pyval -> M pyval)
    (body : pyval -> M pyval) : M pyval :=
  fun w =>
    match enter w with
    | (Raise e, w1) => (Raise e, w1)
    | (Return v, w1) =>
        match body v w1 with
        | (Return _, w2) =>
            match exit [PyNone; PyNone; PyNone] w2 with
            | (Return _, w3) => (Return PyNone, w3)
            | (Raise e', w3) => (Raise e', w3)
            end
        | (Raise e, w2) =>
            match exit [PyExcType (e_class e); PyExc e; PyTraceback] w2 with
            | (Return r, w3) =>
                if truthy r then (Return PyNone, w3) else (Raise e, w3)
            | (Raise e', w3) => (Raise (with_context e e'), w3)
            end
        end
    end.

(** [with SerialConnectorFactory(args): body] *)
Definition with_factory (args : list pyval) (body : pyval -> M pyval)
    : M pyval :=
  SerialConnectorFactory__init__ args ;;;
  with_statement SerialConnectorFactory__enter__
    SerialConnectorFactory__exit__ body.

(** What a listener may be handed: one of the two events of
    [controlbox.conduit.watchdog], whose [source] is a port path and whose
    [resource] is the factory of the world, or an object of another class. *)
Inductive listened : Type :=
  | ResourceAvailableEvent (source : string)
  | ResourceUnavailableEvent (source : string)
  | OtherObject.

(** [def log_connection_events(event)]: two [if isinstance] statements in
    a row, and no [return]. *)
Definition log_connection_events (event : listened) : M pyval :=
  (match event with
   | ResourceAvailableEvent source =>
       m <- fmt "Detected device on %s" [source] None ;;
       logger INFO m ;;;
       pr <- protocol ;;
       m <- fmt "Connected device on %s using protocol %s" [source; pr]
              None ;;
       logger INFO m
   | _ => ret tt
   end) ;;;
  (match event with
   | ResourceUnavailableEvent source =>
       m <- fmt "Disconnected device on %s" [source] None ;;
       logger INFO m
   | _ => ret tt
   end) ;;;
  ret PyNone.

End Factory.

End Transport.

End SerialConn.

(** ** The presence watchdog

    [monitor] hands [SerialConnectorFactory] to a [SerialWatchdog] and calls
    its [check] on a timer. The watchdog itself lives in
    [controlbox/conduit/watchdog.py] and [serial_conduit.py], which are not
    in the sources. *)

Module Watchdog.

Local Open Scope list_scope.

Section Poll.

(** Resource identifiers are port paths. The factory builds a connector for
    an identifier or raises. *)
Variable Connector : Type.
Variable factory : string -> Py.exn + Connector.

Inductive Event : Type :=
  | ResourceAvailable (source : string) (resource : Connector)
  | ResourceUnavailable (source : string).

(** A listener handles an event or raises. *)
Definition Listener : Type := Event -> option Py.exn.

Record Watchdog : Type := mkWatchdog {
  known : gset string;
  listeners : list Listener
}.

(** One emitted event, with what each listener did with it. *)
Record Dispatched : Type := mkDispatched {
  event : Event;
  results : list (option Py.exn)
}.

(** Modelled from the spec: the listener registry of the watchdog, which is
    not in the sources. "dispatch invokes each handler synchronously with
    the event, in registration order"; "a listener that fails during
    dispatch must not prevent remaining listeners from receiving the
    event". *)
Definition dispatch (ls : list Listener) (ev : Event) : Dispatched :=
  mkDispatched ev (map (fun l => l ev) ls).

(** Modelled from the spec: step 2 of [poll], for one enumerated
    identifier; the watchdog is not in the sources. "For each identifier
    in the enumeration not in known: construct a Connector via the Factory
    (...the identifier is only added to known on successful event
    construction), build a ResourceAvailable event carrying the identifier
    and the new Connector, add the identifier to known, dispatch the
    event". *)
Definition appear (ls : list Listener)
    (st : gset string * list Dispatched) (i : string)
    : gset string * list Dispatched :=
  if decide (i ∈ st.1) then st
  else
    match factory i with
    | inr c => ({[ i ]} ∪ st.1, st.2 ++ [dispatch ls (ResourceAvailable i c)])
    | inl _ => st
    end.

(** Modelled from the spec: step 3 of [poll], for one known identifier;
    the watchdog is not in the sources. "For each identifier in known not
    in the current enumeration: build a ResourceUnavailable event, remove
    the identifier from known, dispatch". *)
Definition vanish (enumerated : gset string) (ls : list Listener)
    (st : gset string * list Dispatched) (i : string)
    : gset string * list Dispatched :=
  if decide (i ∈ enumerated) then st
  else (st.1 ∖ {[ i ]}, st.2 ++ [dispatch ls (ResourceUnavailable i)]).

(** Modelled from the spec: the watchdog's [poll] against the enumeration
    of present identifiers; the watchdog is not in the sources. Additions
    are processed before removals. It gives the watchdog after the poll and
    the events emitted, in order. *)
Definition poll (w : Watchdog) (enumerated : gset string)
    : Watchdog * list Dispatched :=
  let st1 := foldl (appear (listeners w)) (known w, []) (elements enumerated) in
  let st2 := foldl (vanish enumerated (listeners w)) st1 (elements st1.1) in
  (mkWatchdog st2.1 (listeners w), st2.2).

Definition available_for (i : string) (d : Dispatched) : bool :=
  match event d with
  | ResourceAvailable s _ => bool_decide (s = i)
  | ResourceUnavailable _ => false
  end.

Definition unavailable_for (i : string) (d : Dispatched) : bool :=
  match event d with
  | ResourceAvailable _ _ => false
  | ResourceUnavailable s => bool_decide (s = i)
  end.

Definition count (p : Dispatched -> bool) (out : list Dispatched) : nat :=
  length (List.filter p out).

Definition constructed (i : string) : bool :=
  match factory i with inr _ => true | inl _ => false end.

End Poll.

Arguments ResourceAvailable {Connector} source resource.
Arguments ResourceUnavailable {Connector} source.
Arguments mkWatchdog {Connector} known listeners.
Arguments known {Connector} w.
Arguments listeners {Connector} w.
Arguments mkDispatched {Connector} event results.
Arguments event {Connector} d.
Arguments results {Connector} d.
Arguments dispatch {Connector} ls ev.
Arguments appear {Connector} factory ls st i.
Arguments vanish {Connector} enumerated ls st i.
Arguments poll {Connector} factory w enumerated.
Arguments available_for {Connector} i d.
Arguments unavailable_for {Connector} i d.
Arguments count {Connector} p out.
Arguments constructed {Connector} factory i.

End Watchdog.

(** ** Worlds and collaborators used as examples *)

Import Py SerialConn.

(** A connector over the closed port [/dev/ttyUSB0], and the same once the
    port is open. *)
Definition usb0 : World :=
  mkWorld (mkSerial (Some "/dev/ttyUSB0") (Some "/dev/ttyUSB0") false)
    (Some (PySniffer "sniffer")) None None [] [].

Definition usb0_open : World :=
  set_serial (mkSerial (Some "/dev/ttyUSB0") (Some "/dev/ttyUSB0") true) usb0.

(** Nothing built yet: what the factory's constructor starts from. *)
Definition blank : World :=
  mkWorld (mkSerial None None false) None None None [] [].

Definition could_not_open : exn :=
  mkExn SerialException (Some "could not open port /dev/ttyUSB0") None None.

Definition io_failure : exn :=
  mkExn OSError (Some "Input/output error") None None.

Definition refusal : exn :=
  mkExn ConnectorError (Some "not available") None None.

Definition boom : exn :=
  mkExn ValueError (Some "raised by the body") None None.

Definition unplugged : Serial -> option exn := fun _ => Some could_not_open.

Definition plugged : Serial -> option exn := fun _ => None.

(** A base class whose [connect] refuses with a [ConnectorError]. *)
Definition refusing : AbstractConnector :=
  {| connect := raise refusal;
     disconnect := ret PyNone;
     protocol := ret "None" |}.

Definition no_configuration : pyval -> M pyval := fun _ => ret PyNone.

(** The body [pass]. *)
Definition pass : pyval -> M pyval := fun _ => ret PyNone.

(** What a failed [open()] turns into inside the handler of [_try_open]. *)
Definition format_failure (e : exn) : exn :=
  mkExn TypeError (Some "not enough arguments for format string") None
    (Some e).

(** The world after [_try_open] has opened the port. *)
Definition opened (w : World) : World :=
  add_log
    (mkLog INFO ("opened serial port " +:+ str_opt (port (w_serial w))))
    (set_serial (mkSerial (port (w_serial w)) (name (w_serial w)) true)
       (add_call OpenCall w)).

(** The world in which [__enter__] calls [connect]. *)
Definition detecting (w : World) : World :=
  add_call ConnectCall
    (add_log
       (mkLog DEBUG ("Detected device on " +:+ str_opt (port (w_serial w))))
       w).

(** The world after [__enter__] has logged the error [e]. *)
Definition unable (e : exn) (w : World) : World :=
  add_log
    (mkLog ERROR
       ("Unable to connect to device on " +:+ str_opt (port (w_serial w))
        +:+ " - " +:+ str_exn e))
    w.

(** A factory that numbers connectors by the length of the port path and
    cannot build one for the port [bad]. *)
Definition numbered (i : string) : exn + nat :=
  if String.eqb i "bad" then inl refusal else inr (String.length i).

Definition silent : Watchdog.Listener nat := fun _ => None.

(** The world after [__enter__] has logged its second record. *)
Definition connected_as (p : option string) (pr : string) (w : World)
    : World :=
  add_log
    (mkLog DEBUG
       ("Connected device on " +:+ str_opt p +:+ " using protocol " +:+ pr))
    w.

(** The records [log_connection_events] writes. *)
Definition detected_record (source : string) : log_record :=
  mkLog INFO ("Detected device on " +:+ source).

Definition connected_record (source pr : string) : log_record :=
  mkLog INFO
    ("Connected device on " +:+ source +:+ " using protocol " +:+ pr).

Definition disconnected_record (source : string) : log_record :=
  mkLog INFO ("Disconnected device on " +:+ source).

(** The world in which the factory's constructor has made its handle:
    closed, on port [p]. *)
Definition fresh_handle (p : string) (w : World) : World :=
  set_serial (mkSerial (Some p) (Some p) false) w.

(** A base class whose [protocol] property cannot be read. *)
Definition unreadable : AbstractConnector :=
  {| connect := ret PyConduit;
     disconnect := ret PyNone;
     protocol := raise boom |}.

(** * Properties of the serial connector *)

Set Warnings "-clear-no-such-hyp".

#[local] Ltac run :=
  cbv beta delta
    [bind ret raise attr try_except fmt logger called
     Serial_isOpen Serial_open Serial_close serial_ports
     _connected _try_open _connect _disconnect _try_available
     new_SerialConnector SerialConnector__init__ AbstractConnector__init__
     spec_connect spec_disconnect spec_protocol store_conduit clear_conduit];
  cbn.

Lemma append_empty (s : string) : s +:+ "" = s.
Proof.
  induction s as [|c s IH]; [reflexivity |].
  change (String c (s +:+ "") = String c s). now rewrite IH.
Qed.

Section SerialConnectorProperties.

Variable hw_open : Serial -> option exn.
Variable sniffed : option string.

Lemma try_open_closed_failing (w : World) (e : exn) :
  is_open (w_serial w) = false ->
  hw_open (w_serial w) = Some e ->
  _try_open hw_open w =
    (if isinstance e SerialException then Raise (format_failure e)
     else Raise e,
     add_call OpenCall w).
Proof.
  intros Hclosed Hfail. run. rewrite Hclosed. cbn. rewrite Hfail.
  destruct (isinstance e SerialException); reflexivity.
Qed.

Lemma try_open_closed_opening (w : World) :
  is_open (w_serial w) = false ->
  hw_open (w_serial w) = None ->
  _try_open hw_open w = (Return PyNone, opened w).
Proof.
  intros Hclosed Hok. run. rewrite Hclosed. cbn. rewrite Hok. cbn.
  rewrite append_empty. reflexivity.
Qed.

Lemma try_open_already_open (w : World) :
  is_open (w_serial w) = true ->
  _try_open hw_open w = (Return PyNone, w).
Proof.
  intros Hopen. run. rewrite Hopen. reflexivity.
Qed.

(** C1: when [open()] raises a [SerialException] on a closed handle, the
    handler of [_try_open] fails while it formats its warning (two
    conversions, one operand), so what leaves [_try_open], [_connect] and
    [connect] is a [TypeError] that no [ConnectorError] wraps and whose
    cause is empty; the handle stays closed. *)
Theorem try_open_failure_is_TypeError (w : World) (e : exn) :
  is_open (w_serial w) = false ->
  hw_open (w_serial w) = Some e ->
  isinstance e SerialException = true ->
  _try_open hw_open w = (Raise (format_failure e), add_call OpenCall w)
  /\ _connect hw_open w = (Raise (format_failure e), add_call OpenCall w)
  /\ spec_connect hw_open sniffed w =
       (Raise (format_failure e), add_call OpenCall w)
  /\ isinstance (format_failure e) ConnectorError = false
  /\ e_cause (format_failure e) = None
  /\ is_open (w_serial (add_call OpenCall w)) = false.
Proof.
  intros Hclosed Hfail Hser.
  pose proof (try_open_closed_failing w e Hclosed Hfail) as H.
  rewrite Hser in H.
  repeat split; try assumption.
  - unfold _connect, bind. now rewrite H.
  - unfold spec_connect, _connected, _connect, bind, Serial_isOpen, attr, ret.
    rewrite Hclosed. now rewrite H.
Qed.

(** C3: constructing a connector over a handle that reports open raises
    [ValueError]; over a handle that reports closed it gives the connector.
    Either way the handle, the log and the calls to the transport are as
    before: only the attributes of the base class were initialised. *)
Theorem SerialConnector_requires_closed (w : World) (sniffer : pyval) :
  new_SerialConnector [PySerial; sniffer] w =
    (if is_open (w_serial w)
     then Raise (mkExn ValueError
                   (Some "serial object should be initially closed")
                   None None)
     else Return PyConnector,
     set_base (Some sniffer) None None w).
Proof.
  run. destruct (is_open (w_serial w)); reflexivity.
Qed.

(** C7: on a handle that reports open, [_try_open] returns without calling
    [open()]: nothing in the world changes, the list of calls included. *)
Theorem try_open_idempotent (w : World) :
  is_open (w_serial w) = true ->
  _try_open hw_open w = (Return PyNone, w)
  /\ count_calls OpenCall (snd (_try_open hw_open w)) = count_calls OpenCall w.
Proof.
  intros Hopen. rewrite (try_open_already_open w Hopen). split; reflexivity.
Qed.

(** C8: [_connected] answers what the handle reports and leaves the world
    as it found it; so it answers [True] exactly on an open handle, [True]
    after [_try_open] has returned and [False] after [_disconnect]. *)
Theorem connected_reports_handle (w : World) :
  _connected w = (Return (PyBool (is_open (w_serial w))), w)
  /\ (fst (_connected w) = Return (PyBool true) <->
      is_open (w_serial w) = true)
  /\ (forall v w', _try_open hw_open w = (Return v, w') ->
                   _connected w' = (Return (PyBool true), w'))
  /\ _connected (snd (_disconnect w)) =
       (Return (PyBool false), snd (_disconnect w)).
Proof.
  split; [reflexivity | split; [| split; [| reflexivity]]].
  - cbn. split; [congruence | now intros ->].
  - intros v w' H.
    destruct (is_open (w_serial w)) eqn:Ho.
    + rewrite (try_open_already_open w Ho) in H.
      injection H as _ <-. unfold _connected, bind, Serial_isOpen, attr, ret.
      now rewrite Ho.
    + destruct (hw_open (w_serial w)) as [e|] eqn:Hh.
      * rewrite (try_open_closed_failing w e Ho Hh) in H.
        destruct (isinstance e SerialException); discriminate.
      * rewrite (try_open_closed_opening w Ho Hh) in H.
        injection H as _ <-. reflexivity.
Qed.

(** C10: whenever [_try_open] returns, it returns [None]: on a handle that
    was open already, and on one it has just opened. *)
Theorem try_open_returns_None (w : World) :
  (forall v w', _try_open hw_open w = (Return v, w') -> v = PyNone)
  /\ (is_open (w_serial w) = true ->
      _try_open hw_open w = (Return PyNone, w))
  /\ (is_open (w_serial w) = false -> hw_open (w_serial w) = None ->
      _try_open hw_open w = (Return PyNone, opened w)).
Proof.
  split; [| split].
  - intros v w' H.
    destruct (is_open (w_serial w)) eqn:Ho.
    + rewrite (try_open_already_open w Ho) in H. congruence.
    + destruct (hw_open (w_serial w)) as [e|] eqn:Hh.
      * rewrite (try_open_closed_failing w e Ho Hh) in H.
        destruct (isinstance e SerialException); discriminate.
      * rewrite (try_open_closed_opening w Ho Hh) in H. congruence.
  - apply try_open_already_open.
  - apply try_open_closed_opening.
Qed.

End SerialConnectorProperties.

(** C4 as amended: an enumeration that raises a [SerialException] (or a
    subclass of it) makes [_try_available] return [False]; an exception of
    any other class leaves [_try_available] as it came. *)
Theorem try_available_catches_SerialException (e : exn) (w : World) :
  _try_available (inl e) w =
    (if isinstance e SerialException then Return (PyBool false) else Raise e,
     add_call EnumerateCall w).
Proof.
  run. destruct (isinstance e SerialException); reflexivity.
Qed.

Lemma try_available_enumerated (l : list string) (w : World) :
  _try_available (inr l) w =
    (Return (PyBool (py_in (name (w_serial w)) l)), add_call EnumerateCall w).
Proof. reflexivity. Qed.

(** C4 as stated fails: an [OSError] raised by the enumeration reaches the
    caller of [_try_available]. *)
Lemma try_available_surfaces_OSError :
  _try_available (inl io_failure) usb0 =
    (Raise io_failure, add_call EnumerateCall usb0)
  /\ ~ (forall e w, exists w',
          _try_available (inl e) w = (Return (PyBool false), w')).
Proof.
  split; [reflexivity |].
  intros H. destruct (H io_failure usb0) as [w' Hw]. discriminate Hw.
Qed.

Lemma try_open_failure_is_TypeError_witness :
  is_open (w_serial usb0) = false
  /\ unplugged (w_serial usb0) = Some could_not_open
  /\ isinstance could_not_open SerialException = true
  /\ _try_open unplugged usb0 =
       (Raise (format_failure could_not_open), add_call OpenCall usb0)
  /\ spec_connect unplugged None usb0 =
       (Raise (format_failure could_not_open), add_call OpenCall usb0).
Proof.
  pose proof (try_open_failure_is_TypeError unplugged None usb0
                could_not_open eq_refl eq_refl eq_refl) as H.
  repeat split; apply H.
Defined.

Lemma try_open_idempotent_witness :
  is_open (w_serial usb0_open) = true
  /\ _try_open unplugged usb0_open = (Return PyNone, usb0_open).
Proof.
  split; [reflexivity |].
  apply (try_open_idempotent unplugged usb0_open eq_refl).
Defined.

Lemma connected_reports_handle_witness :
  _connected usb0 = (Return (PyBool false), usb0)
  /\ _connected (opened usb0) = (Return (PyBool true), opened usb0).
Proof.
  split.
  - apply (connected_reports_handle plugged usb0).
  - apply (proj1 (proj2 (proj2 (connected_reports_handle plugged usb0)))
             PyNone (opened usb0)).
    reflexivity.
Defined.

Lemma try_open_returns_None_witness :
  exists v w',
    _try_open plugged usb0 = (Return v, w') /\ v = PyNone.
Proof.
  eexists. eexists. split; [reflexivity |].
  eapply (proj1 (try_open_returns_None plugged usb0)). reflexivity.
Defined.

(** * Properties of the connector factory *)

Section FactoryProperties.

Context {base : AbstractConnector}.
Variable configure_serial_for_device : pyval -> M pyval.

Lemma enter_connect_raises (w w' : World) (e : exn) :
  connect (detecting w) = (Raise e, w') ->
  SerialConnectorFactory__enter__ w =
    (Raise e, if isinstance e ConnectorError then unable e w' else w').
Proof.
  intros Hc.
  unfold SerialConnectorFactory__enter__, try_except, bind, called, attr,
    fmt, logger, ret, raise.
  cbn. rewrite append_empty.
  match goal with |- context [connect ?x] => change x with (detecting w) end.
  rewrite Hc.
  destruct (isinstance e ConnectorError); [|reflexivity].
  cbn. rewrite append_empty. reflexivity.
Qed.

(** C6: when [connect()] raises a [ConnectorError], [__enter__] logs one
    error record that names the port and the error, and raises the very
    exception it caught. *)
Theorem enter_logs_and_reraises (w w' : World) (e : exn) :
  connect (detecting w) = (Raise e, w') ->
  isinstance e ConnectorError = true ->
  SerialConnectorFactory__enter__ w = (Raise e, unable e w').
Proof.
  intros Hc He. rewrite (enter_connect_raises w w' e Hc). now rewrite He.
Qed.

Lemma enter_result_is_None (w w' : World) (v : pyval) :
  SerialConnectorFactory__enter__ w = (Return v, w') -> v = PyNone.
Proof.
  unfold SerialConnectorFactory__enter__. unfold bind at 1.
  match goal with |- context [try_except ?b ?c ?h w] =>
    destruct (try_except b c h w) as [[a|e] w1] end.
  - unfold ret. congruence.
  - discriminate.
Qed.

(** C9: when [__enter__] returns, it returns [None], so the body of a
    [with] statement over the factory is run with [None] as its target. *)
Theorem enter_returns_None (w : World) :
  (forall v w', SerialConnectorFactory__enter__ w = (Return v, w') ->
                v = PyNone)
  /\ (forall exit body,
        with_statement SerialConnectorFactory__enter__ exit body w =
        with_statement SerialConnectorFactory__enter__ exit
          (fun _ => body PyNone) w).
Proof.
  split.
  - intros v w'. apply enter_result_is_None.
  - intros exit body. unfold with_statement.
    destruct (SerialConnectorFactory__enter__ w) as [[v|e] w1] eqn:He;
      [|reflexivity].
    now rewrite (enter_result_is_None w w1 v He).
Qed.

Lemma exit_rejects_arguments (a : pyval) (args : list pyval) (w : World) :
  SerialConnectorFactory__exit__ (a :: args) w =
    (Raise (too_many_arguments "__exit__"), w).
Proof. reflexivity. Qed.

(** Leaving a [with] block over the factory never reaches [disconnect]:
    the world after the statement is the world after the body. *)
Lemma with_statement_skips_exit (body : pyval -> M pyval)
    (w w1 w2 : World) (v : pyval) (r : outcome pyval) :
  SerialConnectorFactory__enter__ w = (Return v, w1) ->
  body v w1 = (r, w2) ->
  with_statement SerialConnectorFactory__enter__
    SerialConnectorFactory__exit__ body w =
    (match r with
     | Return _ => Raise (too_many_arguments "__exit__")
     | Raise e => Raise (with_context e (too_many_arguments "__exit__"))
     end, w2).
Proof.
  intros He Hb. unfold with_statement. rewrite He, Hb.
  destruct r; reflexivity.
Qed.

(** The factory cannot be built: its constructor always ends in an
    exception. *)
Lemma factory_init_raises (args : list pyval) (w : World) :
  exists e w',
    SerialConnectorFactory__init__ configure_serial_for_device args w =
      (Raise e, w').
Proof.
  destruct args as [|p [|d [|x rest]]]; try (eexists; eexists; reflexivity).
  unfold SerialConnectorFactory__init__, bind, Serial_new.
  destruct (Serial_setPort p _) as [[v1|e1] w1]; [|eauto].
  destruct (configure_serial_for_device d w1) as [[v2|e2] w2]; [|eauto].
  eauto.
Qed.

End FactoryProperties.

(** C5: [with SerialConnectorFactory("/dev/ttyUSB0", device): pass] ends in
    the constructor's [TypeError] with no connect and no disconnect made;
    and over a factory put together by hand, on a port that opens, the
    [with] statement makes its one connect and then fails in [__exit__],
    whether the body returned or raised, with no disconnect made and the
    port left open. *)
Theorem factory_scope_never_disconnects :
  (exists w',
     with_factory (base := spec_base plugged None) no_configuration
       [PyStr "/dev/ttyUSB0"; PyNone] pass blank =
       (Raise (missing_argument "__init__" "sniffer"), w')
     /\ count_calls ConnectCall w' = 0
     /\ count_calls DisconnectCall w' = 0)
  /\ (exists w',
        with_statement
          (SerialConnectorFactory__enter__ (base := spec_base plugged None))
          (SerialConnectorFactory__exit__ (base := spec_base plugged None))
          pass usb0 =
          (Raise (too_many_arguments "__exit__"), w')
        /\ count_calls ConnectCall w' = 1
        /\ count_calls DisconnectCall w' = 0
        /\ count_calls CloseCall w' = 0
        /\ is_open (w_serial w') = true)
  /\ (exists w',
        with_statement
          (SerialConnectorFactory__enter__ (base := spec_base plugged None))
          (SerialConnectorFactory__exit__ (base := spec_base plugged None))
          (fun _ => raise boom) usb0 =
          (Raise (with_context boom (too_many_arguments "__exit__")), w')
        /\ count_calls ConnectCall w' = 1
        /\ count_calls DisconnectCall w' = 0
        /\ count_calls CloseCall w' = 0
        /\ is_open (w_serial w') = true).
Proof.
  split; [|split]; eexists; (split; [reflexivity |]); repeat split.
Qed.

Lemma enter_logs_and_reraises_witness :
  connect (AbstractConnector := refusing) (detecting usb0) =
    (Raise refusal, detecting usb0)
  /\ isinstance refusal ConnectorError = true
  /\ SerialConnectorFactory__enter__ (base := refusing) usb0 =
       (Raise refusal, unable refusal (detecting usb0)).
Proof.
  split; [reflexivity | split; [reflexivity |]].
  apply (enter_logs_and_reraises (base := refusing) usb0 (detecting usb0)
           refusal eq_refl eq_refl).
Defined.

Lemma enter_returns_None_witness :
  exists v w',
    SerialConnectorFactory__enter__ (base := spec_base plugged (Some "p"))
      usb0 = (Return v, w')
    /\ v = PyNone.
Proof.
  eexists. eexists. split; [reflexivity |].
  eapply (proj1 (enter_returns_None (base := spec_base plugged (Some "p"))
                   usb0)).
  reflexivity.
Defined.

(** * Properties of the watchdog *)

Section WatchdogProperties.

Import Watchdog.
Local Open Scope list_scope.

Variable Connector : Type.
Variable factory : string -> Py.exn + Connector.

Lemma count_snoc (p : Dispatched Connector -> bool)
    (out : list (Dispatched Connector)) (d : Dispatched Connector) :
  count p (out ++ [d]) = count p out + (if p d then 1 else 0).
Proof.
  unfold count. rewrite List.filter_app, List.length_app. cbn.
  destruct (p d); reflexivity.
Qed.

Lemma appear_all (ls : list (Listener Connector)) (l : list string) :
  forall (k : gset string) (out : list (Dispatched Connector)),
  NoDup l ->
  let st := foldl (appear factory ls) (k, out) l in
  (forall i, (i ∈ st.1) <-> (i ∈ k \/ (i ∈ l /\ constructed factory i = true)))
  /\ (forall i, count (available_for i) st.2 =
        count (available_for i) out +
        (if decide (i ∈ l /\ (i ∉ k) /\ constructed factory i = true)
         then 1 else 0))
  /\ (forall i, count (unavailable_for i) st.2 = count (unavailable_for i) out).
Proof.
  induction l as [|a l IH]; intros k out Hnd; cbv zeta; cbn [foldl fst snd].
  - split; [|split].
    + intros i. split; [auto|]. intros [H|[H _]]; [exact H | inversion H].
    + intros i. case_decide as H; [destruct H as [H _]; inversion H | lia].
    + reflexivity.
  - apply NoDup_cons in Hnd as [Hal Hnd].
    unfold constructed in *.
    destruct (decide (a ∈ k)) as [Hak|Hak].
    + replace (appear factory ls (k, out) a) with (k, out)
        by (unfold appear; cbn [fst snd]; now rewrite decide_True).
      destruct (IH k out Hnd) as (Hk & Ha & Hu). split; [|split].
      * intros i. rewrite Hk. set_solver.
      * intros i. rewrite Ha. f_equal.
        repeat case_decide; try reflexivity; exfalso; set_solver.
      * exact Hu.
    + destruct (factory a) as [e|c] eqn:Hf.
      * replace (appear factory ls (k, out) a) with (k, out)
          by (unfold appear; cbn [fst snd]; rewrite decide_False by exact Hak;
              now rewrite Hf).
        destruct (IH k out Hnd) as (Hk & Ha & Hu). split; [|split].
        -- intros i. rewrite Hk. split; [set_solver|].
           intros [H|[H Hc]]; [auto|].
           apply elem_of_cons in H as [->|H]; [|auto].
           rewrite Hf in Hc. discriminate.
        -- intros i. rewrite Ha. f_equal.
           repeat case_decide; try reflexivity; exfalso.
           ++ set_solver.
           ++ destruct H0 as (H0 & H1 & H2).
              apply elem_of_cons in H0 as [->|H0];
                [rewrite Hf in H2; discriminate | tauto].
        -- exact Hu.
      * replace (appear factory ls (k, out) a)
          with ({[a]} ∪ k, out ++ [dispatch ls (ResourceAvailable a c)])
          by (unfold appear; cbn [fst snd]; rewrite decide_False by exact Hak;
              now rewrite Hf).
        destruct (IH ({[a]} ∪ k)
                    (out ++ [dispatch ls (ResourceAvailable a c)]) Hnd)
          as (Hk & Ha & Hu). split; [|split].
        -- intros i. rewrite Hk. split.
           ++ intros [H|H]; [|set_solver].
              apply elem_of_union in H as [H|H]; [|auto].
              apply elem_of_singleton in H as ->. right.
              split; [set_solver | now rewrite Hf].
           ++ set_solver.
        -- intros i. rewrite Ha, count_snoc. cbn.
           rewrite <- Nat.add_assoc. f_equal.
           case_bool_decide as Hia.
           ++ subst i. rewrite decide_False by set_solver.
              rewrite decide_True; [reflexivity|].
              repeat split; [set_solver | exact Hak | now rewrite Hf].
           ++ repeat case_decide; try reflexivity; exfalso; set_solver.
        -- intros i. rewrite Hu, count_snoc. cbn. lia.
Qed.

Lemma vanish_all (enumerated : gset string) (ls : list (Listener Connector))
    (l : list string) :
  forall (k : gset string) (out : list (Dispatched Connector)),
  NoDup l ->
  let st := foldl (vanish enumerated ls) (k, out) l in
  (forall i, (i ∈ st.1) <-> (i ∈ k /\ ~ (i ∈ l /\ i ∉ enumerated)))
  /\ (forall i, count (unavailable_for i) st.2 =
        count (unavailable_for i) out +
        (if decide (i ∈ l /\ i ∉ enumerated) then 1 else 0))
  /\ (forall i, count (available_for i) st.2 = count (available_for i) out).
Proof.
  induction l as [|a l IH]; intros k out Hnd; cbv zeta; cbn [foldl fst snd].
  - split; [|split].
    + intros i. split; [|tauto]. intros H. split; [exact H|].
      intros [Hi _]. inversion Hi.
    + intros i. case_decide as H; [destruct H as [H _]; inversion H | lia].
    + reflexivity.
  - apply NoDup_cons in Hnd as [Hal Hnd].
    destruct (decide (a ∈ enumerated)) as [Hae|Hae].
    + replace (vanish enumerated ls (k, out) a) with (k, out)
        by (unfold vanish; cbn [fst snd]; now rewrite decide_True).
      destruct (IH k out Hnd) as (Hk & Hu & Ha). split; [|split].
      * intros i. rewrite Hk. set_solver.
      * intros i. rewrite Hu. f_equal.
        repeat case_decide; try reflexivity; exfalso; set_solver.
      * exact Ha.
    + replace (vanish enumerated ls (k, out) a)
        with (k ∖ {[a]}, out ++ [dispatch ls (ResourceUnavailable a)])
        by (unfold vanish; cbn [fst snd]; now rewrite decide_False).
      destruct (IH (k ∖ {[a]})
                  (out ++ [dispatch ls (ResourceUnavailable a)]) Hnd)
        as (Hk & Hu & Ha). split; [|split].
      * intros i. rewrite Hk. set_solver.
      * intros i. rewrite Hu, count_snoc. cbn.
        rewrite <- Nat.add_assoc. f_equal.
        case_bool_decide as Hia.
        -- subst i. rewrite decide_False by set_solver.
           rewrite decide_True by set_solver. reflexivity.
        -- repeat case_decide; try reflexivity; exfalso; set_solver.
      * intros i. rewrite Ha, count_snoc. cbn. lia.
Qed.

(** C2: a poll from [known w] against the enumeration emits one
    [ResourceAvailable] for each newly enumerated identifier whose
    connector was built and none for any other, one [ResourceUnavailable]
    for each known identifier no longer enumerated and none for any other;
    afterwards the known set is the enumeration without the new
    identifiers whose construction failed, hence the enumeration itself
    when every construction succeeds. *)
Theorem poll_transition (w : Watchdog Connector) (enumerated : gset string) :
  let r := poll factory w enumerated in
  (forall i, count (available_for i) r.2 =
     if decide (i ∈ enumerated ∖ known w /\ constructed factory i = true)
     then 1 else 0)
  /\ (forall i, count (unavailable_for i) r.2 =
        if decide (i ∈ known w ∖ enumerated) then 1 else 0)
  /\ (forall i, (i ∈ known r.1) <->
        (i ∈ enumerated /\ (i ∈ known w \/ constructed factory i = true)))
  /\ ((forall i, i ∈ enumerated ∖ known w -> constructed factory i = true) ->
      known r.1 = enumerated).
Proof.
  unfold poll. cbn [fst snd known].
  pose proof (appear_all (listeners w) (elements enumerated) (known w) []
                (NoDup_elements enumerated)) as H1.
  cbn zeta in H1.
  destruct (foldl (appear factory (listeners w)) (known w, [])
              (elements enumerated)) as [k1 out1] eqn:E1.
  cbn [fst snd] in *.
  destruct H1 as (Hk1 & Ha1 & Hu1).
  pose proof (vanish_all enumerated (listeners w) (elements k1) k1 out1
                (NoDup_elements k1)) as H2.
  cbn zeta in H2.
  destruct (foldl (vanish enumerated (listeners w)) (k1, out1) (elements k1))
    as [k2 out2] eqn:E2.
  cbn [fst snd] in *.
  destruct H2 as (Hk2 & Hu2 & Ha2).
  assert (Hknown : forall i, (i ∈ k2) <->
            (i ∈ enumerated /\ (i ∈ known w \/ constructed factory i = true))).
  { intros i. rewrite Hk2, Hk1. rewrite !elem_of_elements, Hk1.
    rewrite elem_of_elements.
    destruct (decide (i ∈ enumerated)); tauto. }
  split; [|split; [|split]].
  - intros i. rewrite Ha2, Ha1. cbn.
    repeat case_decide; try reflexivity; exfalso.
    + rewrite elem_of_elements in *. set_solver.
    + rewrite elem_of_elements in *. set_solver.
  - intros i. rewrite Hu2, Hu1. cbn.
    repeat case_decide; try reflexivity; exfalso.
    + rewrite elem_of_elements, Hk1, elem_of_elements in *. set_solver.
    + rewrite elem_of_elements, Hk1, elem_of_elements in *. set_solver.
  - exact Hknown.
  - intros Hall. apply set_eq. intros i. rewrite Hknown.
    split; [tauto|]. intros Hi. split; [exact Hi|].
    destruct (decide (i ∈ known w)); [auto|].
    right. apply Hall. set_solver.
Qed.

End WatchdogProperties.

Lemma poll_transition_witness :
  let appeared :=
    Watchdog.poll numbered (Watchdog.mkWatchdog ∅ [silent])
      {[ "/dev/ttyUSB0" ]} in
  let vanished :=
    Watchdog.poll numbered (Watchdog.mkWatchdog {[ "/dev/ttyUSB0" ]} [silent])
      ∅ in
  Watchdog.count (Watchdog.available_for "/dev/ttyUSB0") appeared.2 = 1
  /\ Watchdog.known appeared.1 = {[ "/dev/ttyUSB0" ]}
  /\ Watchdog.count (Watchdog.unavailable_for "/dev/ttyUSB0") vanished.2 = 1
  /\ Watchdog.known vanished.1 = ∅.
Proof.
  intros appeared vanished.
  destruct (poll_transition nat numbered (Watchdog.mkWatchdog ∅ [silent])
              {[ "/dev/ttyUSB0" ]}) as (Ha & _ & _ & Hall).
  destruct (poll_transition nat numbered
              (Watchdog.mkWatchdog {[ "/dev/ttyUSB0" ]} [silent]) ∅)
    as (_ & Hu & _ & Hnone).
  split; [|split; [|split]].
  - exact (Ha "/dev/ttyUSB0").
  - apply Hall. intros i Hi.
    assert (i = "/dev/ttyUSB0") as -> by set_solver. reflexivity.
  - exact (Hu "/dev/ttyUSB0").
  - apply Hnone. intros i Hi. set_solver.
Defined.

(** * Further properties of the connector hooks *)

Section HookProperties.

Variable hw_open : Serial -> option exn.

(** The three ways [_connect] can go. *)
Lemma connect_cases (w : World) :
  (is_open (w_serial w) = true /\
   _connect hw_open w = (Return PyConduit, w))
  \/ (is_open (w_serial w) = false /\ hw_open (w_serial w) = None /\
      _connect hw_open w = (Return PyConduit, opened w))
  \/ (is_open (w_serial w) = false /\
      exists e, hw_open (w_serial w) = Some e /\
        _connect hw_open w =
          (if isinstance e SerialException then Raise (format_failure e)
           else Raise e, add_call OpenCall w)).
Proof.
  unfold _connect, bind.
  destruct (is_open (w_serial w)) eqn:Ho.
  - left. now rewrite (try_open_already_open hw_open w Ho).
  - right. destruct (hw_open (w_serial w)) as [e|] eqn:Hh.
    + right. split; [reflexivity|]. exists e. split; [reflexivity|].
      rewrite (try_open_closed_failing hw_open w e Ho Hh).
      destruct (isinstance e SerialException); reflexivity.
    + left. now rewrite (try_open_closed_opening hw_open w Ho Hh).
Qed.

(** X1: whenever [_connect] returns, it returns the conduit over a handle
    that reports open, on the same port; it has called [open()] once if the
    handle was closed and not at all if it was open. *)
Theorem connect_returns_open_conduit (w w' : World) (v : pyval) :
  _connect hw_open w = (Return v, w') ->
  v = PyConduit
  /\ is_open (w_serial w') = true
  /\ port (w_serial w') = port (w_serial w)
  /\ name (w_serial w') = name (w_serial w)
  /\ count_calls OpenCall w' =
       count_calls OpenCall w + (if is_open (w_serial w) then 0 else 1).
Proof.
  intros H.
  destruct (connect_cases w) as [[Ho E]|[(Ho & Hh & E)|(Ho & e & Hh & E)]];
    rewrite E in H.
  - injection H as <- <-. rewrite Ho. unfold count_calls.
    repeat split; auto; lia.
  - injection H as <- <-. rewrite Ho. repeat split.
    unfold count_calls. cbn. lia.
  - destruct (isinstance e SerialException); discriminate.
Qed.

(** X2: after a [_connect] that returned, another [_connect] returns the
    conduit again and changes nothing: no second [open()], no new log
    record. *)
Theorem connect_twice_opens_once (w w1 : World) (v : pyval) :
  _connect hw_open w = (Return v, w1) ->
  _connect hw_open w1 = (Return PyConduit, w1).
Proof.
  intros H.
  assert (Ho1 : is_open (w_serial w1) = true).
  { destruct (connect_cases w) as [[Ho E]|[(Ho & Hh & E)|(Ho & e & Hh & E)]];
      rewrite E in H.
    - injection H as _ <-. exact Ho.
    - injection H as _ <-. reflexivity.
    - destruct (isinstance e SerialException); discriminate. }
  unfold _connect, bind.
  now rewrite (try_open_already_open hw_open w1 Ho1).
Qed.

(** X3: on a closed handle, [_connect] followed by [_disconnect] gives the
    handle back as it was, after one [open()] and one [close()]. *)
Theorem connect_disconnect_round_trip (w w1 : World) (v : pyval) :
  is_open (w_serial w) = false ->
  _connect hw_open w = (Return v, w1) ->
  fst (_disconnect w1) = Return PyNone
  /\ w_serial (snd (_disconnect w1)) = w_serial w
  /\ count_calls OpenCall (snd (_disconnect w1)) = count_calls OpenCall w + 1
  /\ count_calls CloseCall (snd (_disconnect w1)) =
       count_calls CloseCall w + 1.
Proof.
  intros Hc H.
  destruct (connect_cases w) as [[Ho E]|[(Ho & Hh & E)|(Ho & e & Hh & E)]];
    rewrite E in H.
  - congruence.
  - injection H as _ <-. repeat split.
    + cbn. destruct (w_serial w) as [p n o]. cbn in *. now subst o.
    + unfold count_calls. cbn. lia.
    + unfold count_calls. cbn. lia.
  - destruct (isinstance e SerialException); discriminate.
Qed.

(** X4: [_try_open] never logs a warning, and the exceptions that leave it
    are the exception [open()] raised, when that is not a
    [SerialException], and the [TypeError] of the warning's format when it
    is: its own [ConnectorError] is never raised. *)
Theorem try_open_never_warns (w w' : World) (r : outcome pyval) :
  _try_open hw_open w = (r, w') ->
  (w_log w' = w_log w \/ exists t, w_log w' = mkLog INFO t :: w_log w)
  /\ (forall e', r = Raise e' ->
        is_open (w_serial w) = false /\
        exists e, hw_open (w_serial w) = Some e /\
          ((isinstance e SerialException = false /\ e' = e) \/
           (isinstance e SerialException = true /\ e' = format_failure e))).
Proof.
  intros H.
  destruct (is_open (w_serial w)) eqn:Ho.
  - rewrite (try_open_already_open hw_open w Ho) in H.
    injection H as <- <-. split; [now left | discriminate].
  - destruct (hw_open (w_serial w)) as [e|] eqn:Hh.
    + rewrite (try_open_closed_failing hw_open w e Ho Hh) in H.
      injection H as <- <-. split; [now left|].
      intros e' He'. split; [reflexivity|]. exists e. split; [reflexivity|].
      destruct (isinstance e SerialException); injection He' as <-; auto.
    + rewrite (try_open_closed_opening hw_open w Ho Hh) in H.
      injection H as <- <-. split; [right; eexists; reflexivity | discriminate].
Qed.

End HookProperties.

(** X5: when the enumeration succeeds, [_try_available] answers [True]
    exactly when the handle has a name and the name is one of the
    enumerated ports; a handle without a name is never available. *)
Theorem try_available_membership (l : list string) (w : World) :
  exists b,
    _try_available (inr l) w = (Return (PyBool b), add_call EnumerateCall w)
    /\ (b = true <-> exists s, name (w_serial w) = Some s /\ In s l).
Proof.
  exists (py_in (name (w_serial w)) l). split; [reflexivity|].
  unfold py_in. destruct (name (w_serial w)) as [s|].
  - rewrite existsb_exists. split.
    + intros (x & Hx & Hs). apply String.eqb_eq in Hs. subst x. eauto.
    + intros (s' & Hs' & Hin). injection Hs' as <-.
      exists s. split; [exact Hin | apply String.eqb_refl].
  - split; [discriminate|]. intros (s & Hs & _). discriminate.
Qed.

(** X6: whatever the enumeration does, [_try_available] leaves the handle,
    the log and the connector alone: it makes its one enumeration call and
    neither opens nor closes the port, connected or not. *)
Theorem try_available_only_enumerates (ports : exn + list string)
    (w : World) :
  snd (_try_available ports w) = add_call EnumerateCall w.
Proof.
  destruct ports as [e|l]; [|reflexivity].
  run. destruct (isinstance e SerialException); reflexivity.
Qed.

(** X7: a connector is built only from exactly two arguments, the first
    of them the handle, and only over a closed handle; once built it
    reports disconnected, and building it touched neither the handle nor
    the log nor the transport. *)
Theorem new_connector_is_disconnected (args : list pyval) (w w' : World)
    (v : pyval) :
  new_SerialConnector args w = (Return v, w') ->
  v = PyConnector
  /\ (exists sniffer, args = [PySerial; sniffer] /\ w_sniffer w' = Some sniffer)
  /\ is_open (w_serial w) = false
  /\ _connected w' = (Return (PyBool false), w')
  /\ w_serial w' = w_serial w
  /\ w_log w' = w_log w
  /\ w_calls w' = w_calls w.
Proof.
  intros H.
  destruct args as [|a [|b [|c rest]]]; try discriminate H.
  destruct a; try discriminate H.
  unfold new_SerialConnector, SerialConnector__init__,
    AbstractConnector__init__, bind, Serial_isOpen, attr, ret, raise in H.
  cbn in H.
  destruct (is_open (w_serial w)) eqn:Ho; [discriminate H|].
  injection H as <- <-.
  repeat split; eauto.
  unfold _connected, bind, Serial_isOpen, attr, ret. cbn. now rewrite Ho.
Qed.

Section FactoryBehaviour.

Context {base : AbstractConnector}.
Variable configure_serial_for_device : pyval -> M pyval.

(** X8: the factory's constructor never returns. With a port path and a
    configuration step that returns, it ends in the [TypeError] of
    [SerialConnector(s)], which lacks the sniffer, in the world the
    configuration left. *)
Theorem factory_constructor_never_returns (args : list pyval)
    (w w' : World) (r : outcome pyval) :
  SerialConnectorFactory__init__ configure_serial_for_device args w =
    (r, w') ->
  (exists e, r = Raise e)
  /\ (forall p d v w1,
        args = [PyStr p; d] ->
        configure_serial_for_device d (fresh_handle p w) = (Return v, w1) ->
        r = Raise (missing_argument "__init__" "sniffer") /\ w' = w1).
Proof.
  intros H. split.
  - destruct args as [|p [|d [|x rest]]];
      try (injection H as <- _; eexists; reflexivity).
    unfold SerialConnectorFactory__init__, bind, Serial_new in H.
    destruct (Serial_setPort p _) as [[v1|e1] w1];
      [| injection H as <- _; eauto].
    destruct (configure_serial_for_device d w1) as [[v2|e2] w2];
      injection H as <- _; eauto.
  - intros p d v w1 -> Hc.
    unfold SerialConnectorFactory__init__, bind, Serial_new, Serial_setPort
      in H.
    cbn in H. change (set_serial _ (set_serial _ w)) with (fresh_handle p w)
      in H.
    rewrite Hc in H. injection H as <- <-. split; reflexivity.
Qed.

(** X9: when [connect()] returns and the protocol can be read,
    [__enter__] returns [None] after two debug records, the second naming
    the port as it was read before the protocol. *)
Theorem enter_success_logs_connected (w w1 w2 : World) (v : pyval)
    (pr : string) :
  connect (detecting w) = (Return v, w1) ->
  protocol w1 = (Return pr, w2) ->
  SerialConnectorFactory__enter__ w =
    (Return PyNone, connected_as (port (w_serial w1)) pr w2).
Proof.
  intros Hc Hp.
  unfold SerialConnectorFactory__enter__, try_except, bind, called, attr,
    fmt, logger, ret, raise.
  cbn. rewrite append_empty.
  match goal with |- context [connect ?x] => change x with (detecting w) end.
  rewrite Hc. rewrite Hp. cbn. rewrite append_empty. reflexivity.
Qed.

(** X10: an exception of [connect()] that is not a [ConnectorError] goes
    through [__enter__] as it is, and nothing is logged for it. *)
Theorem enter_passes_other_errors (w w' : World) (e : exn) :
  connect (detecting w) = (Raise e, w') ->
  isinstance e ConnectorError = false ->
  SerialConnectorFactory__enter__ w = (Raise e, w').
Proof.
  intros Hc He. rewrite (enter_connect_raises w w' e Hc). now rewrite He.
Qed.

(** X11: once [__enter__] has returned, a [with] statement over the
    factory ends in the [TypeError] of [__exit__] (chained to the body's
    exception, if it raised), in the world the body left: [disconnect] is
    not reached. *)
Theorem with_never_disconnects (body : pyval -> M pyval)
    (w w1 w2 : World) (v : pyval) (r : outcome pyval) :
  SerialConnectorFactory__enter__ w = (Return v, w1) ->
  body v w1 = (r, w2) ->
  with_statement SerialConnectorFactory__enter__
    SerialConnectorFactory__exit__ body w =
    (match r with
     | Return _ => Raise (too_many_arguments "__exit__")
     | Raise e => Raise (with_context e (too_many_arguments "__exit__"))
     end, w2)
  /\ count_calls DisconnectCall
       (snd (with_statement SerialConnectorFactory__enter__
               SerialConnectorFactory__exit__ body w)) =
     count_calls DisconnectCall w2.
Proof.
  intros He Hb. unfold with_statement. rewrite He, Hb.
  destruct r; split; reflexivity.
Qed.

(** X12: [log_connection_events] writes one record for an unavailable
    resource and none for an object that is not an event, and returns
    [None]; for an available resource it writes the detection record
    first, then reads the protocol, and writes the second record only if
    that read returns. *)
Theorem log_connection_events_records (w : World) :
  (forall source,
     log_connection_events (ResourceUnavailableEvent source) w =
       (Return PyNone, add_log (disconnected_record source) w))
  /\ log_connection_events OtherObject w = (Return PyNone, w)
  /\ (forall source,
        log_connection_events (ResourceAvailableEvent source) w =
          match protocol (add_log (detected_record source) w) with
          | (Return pr, w1) =>
              (Return PyNone, add_log (connected_record source pr) w1)
          | (Raise e, w1) => (Raise e, w1)
          end).
Proof.
  split; [|split].
  - intros source.
    unfold log_connection_events, bind, fmt, logger, ret. cbn.
    rewrite append_empty. reflexivity.
  - reflexivity.
  - intros source.
    unfold log_connection_events, bind, fmt, logger, ret. cbn.
    rewrite append_empty.
    match goal with |- context [protocol ?x] =>
      change x with (add_log (detected_record source) w) end.
    destruct (protocol (add_log (detected_record source) w)) as [[pr|e] w1];
      [|reflexivity].
    cbn. rewrite append_empty. reflexivity.
Qed.

End FactoryBehaviour.

Lemma connect_returns_open_conduit_witness :
  _connect plugged usb0 = (Return PyConduit, opened usb0)
  /\ is_open (w_serial (opened usb0)) = true
  /\ count_calls OpenCall (opened usb0) = count_calls OpenCall usb0 + 1.
Proof.
  split; [reflexivity|].
  pose proof (connect_returns_open_conduit plugged usb0 (opened usb0)
                PyConduit eq_refl) as H.
  split; apply H.
Defined.

Lemma connect_twice_opens_once_witness :
  _connect plugged usb0 = (Return PyConduit, opened usb0)
  /\ _connect plugged (opened usb0) = (Return PyConduit, opened usb0).
Proof.
  split; [reflexivity|].
  apply (connect_twice_opens_once plugged usb0 (opened usb0) PyConduit
           eq_refl).
Defined.

Lemma connect_disconnect_round_trip_witness :
  is_open (w_serial usb0) = false
  /\ _connect plugged usb0 = (Return PyConduit, opened usb0)
  /\ w_serial (snd (_disconnect (opened usb0))) = w_serial usb0.
Proof.
  split; [reflexivity | split; [reflexivity|]].
  apply (connect_disconnect_round_trip plugged usb0 (opened usb0) PyConduit
           eq_refl eq_refl).
Defined.

Lemma try_open_never_warns_witness :
  _try_open unplugged usb0 =
    (Raise (format_failure could_not_open), add_call OpenCall usb0)
  /\ (w_log (add_call OpenCall usb0) = w_log usb0
      \/ exists t, w_log (add_call OpenCall usb0) = mkLog INFO t :: w_log usb0).
Proof.
  split; [reflexivity|].
  apply (try_open_never_warns unplugged usb0 (add_call OpenCall usb0)
           (Raise (format_failure could_not_open)) eq_refl).
Defined.

Lemma new_connector_is_disconnected_witness :
  new_SerialConnector [PySerial; PySniffer "sniffer"] usb0 =
    (Return PyConnector, usb0)
  /\ _connected usb0 = (Return (PyBool false), usb0).
Proof.
  split; [reflexivity|].
  apply (new_connector_is_disconnected [PySerial; PySniffer "sniffer"]
           usb0 usb0 PyConnector eq_refl).
Defined.

Lemma factory_constructor_never_returns_witness :
  exists e,
    fst (SerialConnectorFactory__init__ no_configuration
           [PyStr "/dev/ttyUSB0"; PyNone] blank) = Raise e.
Proof.
  destruct (factory_constructor_never_returns no_configuration [PyStr "/dev/ttyUSB0"; PyNone] blank
              (fresh_handle "/dev/ttyUSB0" blank)
              (Raise (missing_argument "__init__" "sniffer")) eq_refl)
    as [[e He] _].
  exists e. exact He.
Defined.

Lemma enter_success_logs_connected_witness :
  exists w1,
    SerialConnectorFactory__enter__ (base := spec_base plugged (Some "p"))
      usb0 = (Return PyNone, connected_as (Some "/dev/ttyUSB0") "p" w1)
    /\ is_open (w_serial w1) = true.
Proof.
  eexists. split.
  - apply (enter_success_logs_connected (base := spec_base plugged (Some "p"))
             usb0 _ _ PyConduit "p" eq_refl eq_refl).
  - reflexivity.
Defined.

Lemma enter_passes_other_errors_witness :
  SerialConnectorFactory__enter__ (base := spec_base unplugged None) usb0 =
    (Raise (format_failure could_not_open),
     add_call OpenCall (detecting usb0)).
Proof.
  apply (enter_passes_other_errors (base := spec_base unplugged None) usb0
           (add_call OpenCall (detecting usb0))
           (format_failure could_not_open) eq_refl eq_refl).
Defined.

Lemma with_never_disconnects_witness :
  let ws :=
    snd (SerialConnectorFactory__enter__ (base := spec_base plugged None)
           usb0) in
  with_statement
    (SerialConnectorFactory__enter__ (base := spec_base plugged None))
    (SerialConnectorFactory__exit__ (base := spec_base plugged None))
    pass usb0 = (Raise (too_many_arguments "__exit__"), ws)
  /\ count_calls DisconnectCall ws = 0.
Proof.
  intros ws. split; [|reflexivity].
  apply (proj1 (with_never_disconnects (base := spec_base plugged None) pass
                  usb0 ws ws PyNone (Return PyNone) eq_refl eq_refl)).
Defined.

Lemma log_connection_events_records_witness :
  log_connection_events (base := spec_base plugged None)
    (ResourceAvailableEvent "/dev/ttyUSB0") usb0 =
    (Return PyNone,
     add_log (connected_record "/dev/ttyUSB0" "None")
       (add_log (detected_record "/dev/ttyUSB0") usb0))
  /\ log_connection_events (base := unreadable)
       (ResourceAvailableEvent "/dev/ttyUSB0") usb0 =
       (Raise boom, add_log (detected_record "/dev/ttyUSB0") usb0).
Proof.
  split.
  - apply (proj2 (proj2 (log_connection_events_records
                           (base := spec_base plugged None) usb0))).
  - apply (proj2 (proj2 (log_connection_events_records
                           (base := unreadable) usb0))).
Defined.
